(** * The [logger] package: a facade over zap

    A shallow embedding of [src/logger/zap.go]: the configuration builder
    ([New], [newLogger], [pathCore], [consoleCore], the two encoder
    configurations, [infoPriority], [errorPriority], [zapLevel]) and the
    [Logger] facade with its eighteen methods.

    The package delegates to three libraries.  The parts of them that the
    package calls are modelled first, after their documented behaviour, each
    in a module named after the Go package: [os], [lumberjack], [zapcore]
    and [zap].  A log call is a pure function returning what was written, in
    order, together with the way control leaves the call: by returning, by
    a panic, or by exiting the process. *)

From Stdlib Require Import ZArith List String Bool Lia.
Import ListNotations.

Set Warnings "-register-all".

Local Open Scope string_scope.
Local Open Scope list_scope.
Local Open Scope Z_scope.

(* ================================================================== *)
(** ** Library [os]: the two standard streams *)

Module os.

Inductive File : Type :=
| Stdout
| Stderr.

Definition File_eqb (a b : File) : bool :=
  match a, b with
  | Stdout, Stdout | Stderr, Stderr => true
  | _, _ => false
  end.

End os.

(* ================================================================== *)
(** ** Library [lumberjack]: the rotating-file writer

    A [lumberjack.Logger] value is a plain struct.  Building one touches no
    file: the file named [Filename] is opened or created by the first
    [Write].  [MaxSize] is the size, in megabytes, at which it rotates. *)

Module lumberjack.

Record Logger : Type := {
  Filename : string;
  MaxSize : Z;
  MaxAge : Z;
  MaxBackups : Z;
  LocalTime : bool;
  Compress : bool
}.

End lumberjack.

(* ================================================================== *)
(** ** Library [zapcore] *)

Module zapcore.

(** [type Level int8], with its seven named values. *)
Definition Level : Type := Z.

Definition DebugLevel : Level := -1.
Definition InfoLevel : Level := 0.
Definition WarnLevel : Level := 1.
Definition ErrorLevel : Level := 2.
Definition DPanicLevel : Level := 3.
Definition PanicLevel : Level := 4.
Definition FatalLevel : Level := 5.

(** [OmitKey]: a key set to it drops the field from the output. *)
Definition OmitKey : string := "".

Inductive LevelEncoder : Type :=
| LowercaseLevelEncoder
| LowercaseColorLevelEncoder
| CapitalLevelEncoder
| CapitalColorLevelEncoder.

Inductive TimeEncoder : Type :=
| EpochTimeEncoder
| EpochMillisTimeEncoder
| EpochNanosTimeEncoder
| ISO8601TimeEncoder
| RFC3339TimeEncoder
| RFC3339NanoTimeEncoder.

Inductive DurationEncoder : Type :=
| SecondsDurationEncoder
| NanosDurationEncoder
| MillisDurationEncoder
| StringDurationEncoder.

Inductive CallerEncoder : Type :=
| FullCallerEncoder
| ShortCallerEncoder.

Inductive NameEncoder : Type :=
| FullNameEncoder.

(** [EncoderConfig]; a function-valued field may be nil, hence [option]. *)
Record EncoderConfig : Type := {
  MessageKey : string;
  LevelKey : string;
  TimeKey : string;
  NameKey : string;
  CallerKey : string;
  FunctionKey : string;
  StacktraceKey : string;
  SkipLineEnding : bool;
  LineEnding : string;
  EncodeLevel : option LevelEncoder;
  EncodeTime : option TimeEncoder;
  EncodeDuration : option DurationEncoder;
  EncodeCaller : option CallerEncoder;
  EncodeName : option NameEncoder;
  ConsoleSeparator : string
}.

Inductive Encoder : Type :=
| ConsoleEncoder (cfg : EncoderConfig)
| JSONEncoder (cfg : EncoderConfig).

Definition NewConsoleEncoder (cfg : EncoderConfig) : Encoder := ConsoleEncoder cfg.
Definition NewJSONEncoder (cfg : EncoderConfig) : Encoder := JSONEncoder cfg.

Definition isJSON (e : Encoder) : bool :=
  match e with
  | JSONEncoder _ => true
  | ConsoleEncoder _ => false
  end.

Definition configOf (e : Encoder) : EncoderConfig :=
  match e with
  | ConsoleEncoder cfg => cfg
  | JSONEncoder cfg => cfg
  end.

(** A [WriteSyncer] is an interface value: nil, one of the standard
    streams, a rotating-file writer wrapped by [AddSync], or the
    multiplexer built by [NewMultiWriteSyncer]. *)
Inductive WriteSyncer : Type :=
| nilWriteSyncer
| fileSyncer (f : os.File)
| AddSync (w : lumberjack.Logger)
| multiWriteSyncer (ws : list WriteSyncer).

(** [NewMultiWriteSyncer]: a single writer is returned as it is. *)
Definition NewMultiWriteSyncer (ws : list WriteSyncer) : WriteSyncer :=
  match ws with
  | [w] => w
  | _ => multiWriteSyncer ws
  end.

(** Where bytes finally land. *)
Inductive Sink : Type :=
| toStream (f : os.File)
| toRotatingFile (w : lumberjack.Logger).

(** [WriteSyncer.Write]: the sinks reached, in order, and whether the call
    faulted.  Calling a method on the nil interface value is a run-time
    panic; the multiplexer calls its writers one after the other, so a
    fault stops it where it happens. *)
Fixpoint Write (w : WriteSyncer) : list Sink * bool :=
  match w with
  | nilWriteSyncer => ([], true)
  | fileSyncer f => ([toStream f], false)
  | AddSync lj => ([toRotatingFile lj], false)
  | multiWriteSyncer ws =>
      (fix each (l : list WriteSyncer) : list Sink * bool :=
         match l with
         | [] => ([], false)
         | x :: rest =>
             let '(here, fault) := Write x in
             if fault then (here, true)
             else let '(more, fault') := each rest in (here ++ more, fault')
         end) ws
  end.

(** [LevelEnabler]: the interface with the one method [Enabled]. *)
Definition LevelEnabler : Type := Level -> bool.

(** A [Level] is itself a [LevelEnabler]: it enables itself and above. *)
Definition Level_Enabled (l : Level) : LevelEnabler := fun lvl => l <=? lvl.

Inductive Core : Type :=
| ioCore (enc : Encoder) (out : WriteSyncer) (enab : LevelEnabler)
| multiCore (cores : list Core)
| nopCore.

Definition NewCore (enc : Encoder) (ws : WriteSyncer) (enab : LevelEnabler) : Core :=
  ioCore enc ws enab.

(** [NewTee]: no core gives the no-op core, one core is returned as it is. *)
Definition NewTee (cores : list Core) : Core :=
  match cores with
  | [] => nopCore
  | [c] => c
  | _ => multiCore cores
  end.

Fixpoint Enabled (c : Core) (lvl : Level) : bool :=
  match c with
  | ioCore _ _ enab => enab lvl
  | multiCore cores =>
      (fix any (l : list Core) : bool :=
         match l with
         | [] => false
         | x :: rest => if Enabled x lvl then true else any rest
         end) cores
  | nopCore => false
  end.

(** [Core.Check]: the writing cores that take the entry, in the order in
    which the checked entry will write them. *)
Fixpoint Check (c : Core) (lvl : Level) : list (Encoder * WriteSyncer) :=
  match c with
  | ioCore enc out enab => if enab lvl then [(enc, out)] else []
  | multiCore cores =>
      (fix all (l : list Core) : list (Encoder * WriteSyncer) :=
         match l with
         | [] => []
         | x :: rest => Check x lvl ++ all rest
         end) cores
  | nopCore => []
  end.

End zapcore.

(* ================================================================== *)
(** ** Library [zap] *)

Module zap.

Import zapcore.

(** The three ways the sugared logger builds a message; the text itself
    is left uninterpreted. *)
Inductive Message : Type :=
| Sprint (args : list string)
| Sprintf (template : string) (args : list string)
| Sprintln (args : list string).

Record Entry : Type := {
  Level : zapcore.Level;
  LoggerName : string;
  Msg : Message
}.

(** One encoded entry handed to one sink. *)
Record Written : Type := {
  sink : Sink;
  encoder : Encoder;
  entry : Entry
}.

(** How control leaves a log call. *)
Inductive PanicValue : Type :=
| NilDereference
| LoggedMessage (msg : Message).

Inductive Outcome : Type :=
| Returned
| Panicked (v : PanicValue)
| Exited (code : Z).

Inductive CheckWriteAction : Type :=
| WriteThenNoop
| WriteThenPanic
| WriteThenFatal.

Record Logger : Type := {
  core : Core;
  development : bool;
  name : string
}.

(** [zap.New(core)] with no option: not in development, unnamed. *)
Definition New (c : Core) : Logger :=
  {| core := c; development := false; name := "" |}.

Definition NewNop : Logger :=
  {| core := nopCore; development := false; name := "" |}.

(** [Logger.Named]: the empty segment changes nothing, other segments are
    joined by a period. *)
Definition Named (s : string) (log : Logger) : Logger :=
  if String.eqb s "" then log
  else {| core := core log;
          development := development log;
          name := if String.eqb (name log) "" then s
                  else String.append (name log) (String.append "." s) |}.

Record SugaredLogger : Type := { base : Logger }.

Definition Sugar (log : Logger) : SugaredLogger := {| base := log |}.

(** The checked entry writes its cores in order; a faulting writer
    unwinds the call at once. *)
Fixpoint writeCores (ent : Entry) (cs : list (Encoder * WriteSyncer))
  : list Written * bool :=
  match cs with
  | [] => ([], false)
  | (enc, out) :: rest =>
      let '(sinks, fault) := Write out in
      let here := map (fun s => {| sink := s; encoder := enc; entry := ent |}) sinks in
      if fault then (here, true)
      else let '(more, fault') := writeCores ent rest in (here ++ more, fault')
  end.

(** [Logger.check]: what follows the write is decided by the level alone,
    whether or not a core takes the entry. *)
Definition terminalAction (log : Logger) (lvl : zapcore.Level) : CheckWriteAction :=
  if lvl =? PanicLevel then WriteThenPanic
  else if lvl =? FatalLevel then WriteThenFatal
  else if lvl =? DPanicLevel then
    (if development log then WriteThenPanic else WriteThenNoop)
  else WriteThenNoop.

Definition after (a : CheckWriteAction) (msg : Message) : Outcome :=
  match a with
  | WriteThenNoop => Returned
  | WriteThenPanic => Panicked (LoggedMessage msg)
  | WriteThenFatal => Exited 1
  end.

(** [SugaredLogger.log]: below [DPanicLevel] a disabled level returns at
    once; otherwise the entry is checked, written and followed by the
    terminal action of its level. *)
Definition log (s : SugaredLogger) (lvl : zapcore.Level) (msg : Message)
  : list Written * Outcome :=
  let lg := base s in
  if (lvl <? DPanicLevel) && negb (Enabled (core lg) lvl) then ([], Returned)
  else
    let ent := {| Level := lvl; LoggerName := name lg; Msg := msg |} in
    let '(ws, fault) := writeCores ent (Check (core lg) lvl) in
    if fault then (ws, Panicked NilDereference)
    else (ws, after (terminalAction lg lvl) msg).

(** The methods of [SugaredLogger] that the package calls. *)
Definition Debug s args := log s DebugLevel (Sprint args).
Definition Debugf s template args := log s DebugLevel (Sprintf template args).
Definition Debugln s args := log s DebugLevel (Sprintln args).
Definition Info s args := log s InfoLevel (Sprint args).
Definition Infof s template args := log s InfoLevel (Sprintf template args).
Definition Infoln s args := log s InfoLevel (Sprintln args).
Definition Warn s args := log s WarnLevel (Sprint args).
Definition Warnf s template args := log s WarnLevel (Sprintf template args).
Definition Warnln s args := log s WarnLevel (Sprintln args).
Definition Error s args := log s ErrorLevel (Sprint args).
Definition Errorf s template args := log s ErrorLevel (Sprintf template args).
Definition Errorln s args := log s ErrorLevel (Sprintln args).
Definition DPanic s args := log s DPanicLevel (Sprint args).
Definition DPanicf s template args := log s DPanicLevel (Sprintf template args).
Definition Panicln s args := log s PanicLevel (Sprintln args).
Definition Fatal s args := log s FatalLevel (Sprint args).
Definition Fatalf s template args := log s FatalLevel (Sprintf template args).
Definition Fatalln s args := log s FatalLevel (Sprintln args).

(** The encoder configurations zap ships, as of zap 1.27.  The package
    takes them as its starting point and overwrites most of their fields;
    below, the package is stated over any two starting configurations and
    these two serve in the closed examples. *)
Definition NewDevelopmentEncoderConfig : EncoderConfig :=
  {| MessageKey := "M"; LevelKey := "L"; TimeKey := "T"; NameKey := "N";
     CallerKey := "C"; FunctionKey := OmitKey; StacktraceKey := "S";
     SkipLineEnding := false; LineEnding := String (Ascii.ascii_of_nat 10) EmptyString;
     EncodeLevel := Some CapitalLevelEncoder;
     EncodeTime := Some ISO8601TimeEncoder;
     EncodeDuration := Some StringDurationEncoder;
     EncodeCaller := Some ShortCallerEncoder;
     EncodeName := None;
     ConsoleSeparator := "" |}.

Definition NewProductionEncoderConfig : EncoderConfig :=
  {| MessageKey := "msg"; LevelKey := "level"; TimeKey := "ts"; NameKey := "logger";
     CallerKey := "caller"; FunctionKey := OmitKey; StacktraceKey := "stacktrace";
     SkipLineEnding := false; LineEnding := String (Ascii.ascii_of_nat 10) EmptyString;
     EncodeLevel := Some LowercaseLevelEncoder;
     EncodeTime := Some EpochTimeEncoder;
     EncodeDuration := Some SecondsDurationEncoder;
     EncodeCaller := Some ShortCallerEncoder;
     EncodeName := None;
     ConsoleSeparator := "" |}.

End zap.

(* ================================================================== *)
(** ** Package [logger]: the configuration builder *)

Definition mode : Type := Z.
Definition level : Type := Z.

Definition Developemnt : mode := 0.
Definition Production : mode := 1.

Definition Debug : level := 0.
Definition Info : level := 1.
Definition Warn : level := 2.
Definition Error : level := 3.
Definition Default : level := Info.

(** Go's [error] interface; [None] is nil. *)
Definition error : Type := string.

(** [zapLevel] (lines 164-173): a switch with the cases [Debug] and
    [Error] and a default. *)
Definition zapLevel (lv : level) : zapcore.Level :=
  if lv =? Debug then zapcore.DebugLevel
  else if lv =? Error then zapcore.ErrorLevel
  else zapcore.InfoLevel.

(** [infoPriority] and [errorPriority] (lines 150-162): closures over the
    mapped floor. *)
Definition infoPriority (minLevel : level) : zapcore.LevelEnabler :=
  let minLV := zapLevel minLevel in
  fun lv => (minLV <=? lv) && (lv <? zapcore.ErrorLevel).

Definition errorPriority (minLevel : level) : zapcore.LevelEnabler :=
  let minLV := zapLevel minLevel in
  fun lv => (minLV <=? lv) && (zapcore.ErrorLevel <=? lv).

(** [consoleCore] (lines 94-100): one console encoder, two cores. *)
Definition consoleCore (minLevel : level) (encCfg : zapcore.EncoderConfig) : zapcore.Core :=
  let encoder := zapcore.NewConsoleEncoder encCfg in
  let outputCore :=
    zapcore.NewCore encoder (zapcore.fileSyncer os.Stdout) (infoPriority minLevel) in
  let errCore :=
    zapcore.NewCore encoder (zapcore.fileSyncer os.Stderr) (errorPriority minLevel) in
  zapcore.NewTee [outputCore; errCore].

(** The struct literal of [pathCore]: the fields not named are zero. *)
Definition rotating (path : string) : lumberjack.Logger :=
  {| lumberjack.Filename := path;
     lumberjack.MaxSize := 1000;
     lumberjack.MaxAge := 0;
     lumberjack.MaxBackups := 0;
     lumberjack.LocalTime := false;
     lumberjack.Compress := false |}.

(** The slice [files] of [pathCore]: [make] gives it [len(paths)] nil
    entries, and the loop appends one writer per path behind them. *)
Definition pathFiles (paths : list string) : list zapcore.WriteSyncer :=
  fold_left
    (fun files path => files ++ [zapcore.AddSync (rotating path)])
    paths
    (repeat zapcore.nilWriteSyncer (List.length paths)).

(** [pathCore] (lines 78-92): its only return has a nil error. *)
Definition pathCore (lv : level) (encCfg : zapcore.EncoderConfig) (paths : list string)
  : zapcore.Core * option error :=
  let encoder := zapcore.NewJSONEncoder encCfg in
  let files := pathFiles paths in
  let writer := zapcore.NewMultiWriteSyncer files in
  (zapcore.NewCore encoder writer (zapcore.Level_Enabled (zapLevel lv)), None).

(** [newLogger] (lines 58-76): the console core always, the file core
    when [len(paths) != 0]. *)
Definition newLogger (name : string) (minLevel : level) (cfg : zapcore.EncoderConfig)
    (paths : list string) : option zap.SugaredLogger * option error :=
  let cores := [] ++ [consoleCore minLevel cfg] in
  let finish (cores : list zapcore.Core) :=
    let logger := zap.New (zapcore.NewTee cores) in
    let slogger := zap.Sugar (zap.Named name logger) in
    (Some slogger, None) in
  if negb (Nat.eqb (List.length paths) 0) then
    match pathCore minLevel cfg paths with
    | (_, Some err) => (None, Some err)
    | (fileCore, None) => finish (cores ++ [fileCore])
    end
  else finish cores.

(** The two encoder configurations start from the ones zap ships
    ([zap.NewDevelopmentEncoderConfig], [zap.NewProductionEncoderConfig]),
    taken here as [devBase] and [prodBase], and assign eleven fields; the
    fields not assigned keep the value of the starting configuration. *)
Section EncoderConfigs.

Variables devBase prodBase : zapcore.EncoderConfig.

Definition developmentEncoderConfig : zapcore.EncoderConfig :=
  let cfg := devBase in
  {| zapcore.NameKey := "logger";
     zapcore.EncodeName := Some zapcore.FullNameEncoder;
     zapcore.MessageKey := "message";
     zapcore.TimeKey := "timestamp";
     zapcore.EncodeTime := Some zapcore.RFC3339TimeEncoder;
     zapcore.LevelKey := "level";
     zapcore.EncodeLevel := Some zapcore.CapitalColorLevelEncoder;
     zapcore.CallerKey := "caller";
     zapcore.EncodeCaller := Some zapcore.ShortCallerEncoder;
     zapcore.StacktraceKey := "stacktrace";
     zapcore.FunctionKey := zapcore.OmitKey;
     zapcore.SkipLineEnding := zapcore.SkipLineEnding cfg;
     zapcore.LineEnding := zapcore.LineEnding cfg;
     zapcore.EncodeDuration := zapcore.EncodeDuration cfg;
     zapcore.ConsoleSeparator := zapcore.ConsoleSeparator cfg |}.

Definition productionEncoderConfig : zapcore.EncoderConfig :=
  let cfg := prodBase in
  {| zapcore.NameKey := "logger";
     zapcore.EncodeName := Some zapcore.FullNameEncoder;
     zapcore.MessageKey := "msg";
     zapcore.TimeKey := "ts";
     zapcore.EncodeTime := Some zapcore.RFC3339TimeEncoder;
     zapcore.LevelKey := "lv";
     zapcore.EncodeLevel := Some zapcore.CapitalLevelEncoder;
     zapcore.CallerKey := "caller";
     zapcore.EncodeCaller := Some zapcore.ShortCallerEncoder;
     zapcore.StacktraceKey := "stacktrace";
     zapcore.FunctionKey := zapcore.OmitKey;
     zapcore.SkipLineEnding := zapcore.SkipLineEnding cfg;
     zapcore.LineEnding := zapcore.LineEnding cfg;
     zapcore.EncodeDuration := zapcore.EncodeDuration cfg;
     zapcore.ConsoleSeparator := zapcore.ConsoleSeparator cfg |}.

End EncoderConfigs.

(** ** Package [logger]: the facade *)

Record Logger : Type := { logger : zap.SugaredLogger }.

(** [New] (lines 35-52): a switch on the mode with the one case
    [Production] and a default; a non-nil error is handed on with a nil
    handle, otherwise the sugared logger is wrapped.  [newLogger] never
    returns a nil logger with a nil error, so the last branch is never
    taken. *)
Definition New (devBase prodBase : zapcore.EncoderConfig)
    (name : string) (md : mode) (minLevel : level) (filePaths : list string)
  : option Logger * option error :=
  let '(logger, err) :=
    if md =? Production
    then newLogger name minLevel (productionEncoderConfig prodBase) filePaths
    else newLogger name minLevel (developmentEncoderConfig devBase) filePaths in
  match err, logger with
  | Some e, _ => (None, Some e)
  | None, Some lg => (Some {| logger := lg |}, None)
  | None, None => (None, None)
  end.

Definition GetGlobal (global : zap.Logger) : Logger :=
  {| logger := zap.Sugar global |}.


Definition Logger_Panic (l : Logger) (args : list string) := zap.DPanic (logger l) args.
Definition Logger_Panicf (l : Logger) (template : string) (args : list string) :=
  zap.DPanicf (logger l) template args.
Definition Logger_Panicln (l : Logger) (args : list string) := zap.Panicln (logger l) args.
Definition Logger_Debug (l : Logger) (args : list string) := zap.Debug (logger l) args.
Definition Logger_Debugf (l : Logger) (template : string) (args : list string) :=
  zap.Debugf (logger l) template args.
Definition Logger_Debugln (l : Logger) (args : list string) := zap.Debugln (logger l) args.
Definition Logger_Error (l : Logger) (args : list string) := zap.Error (logger l) args.
Definition Logger_Errorf (l : Logger) (template : string) (args : list string) :=
  zap.Errorf (logger l) template args.
Definition Logger_Errorln (l : Logger) (args : list string) := zap.Errorln (logger l) args.
Definition Logger_Fatal (l : Logger) (args : list string) := zap.Fatal (logger l) args.
Definition Logger_Fatalf (l : Logger) (template : string) (args : list string) :=
  zap.Fatalf (logger l) template args.
Definition Logger_Fatalln (l : Logger) (args : list string) := zap.Fatalln (logger l) args.
Definition Logger_Info (l : Logger) (args : list string) := zap.Info (logger l) args.
Definition Logger_Infof (l : Logger) (template : string) (args : list string) :=
  zap.Infof (logger l) template args.
Definition Logger_Infoln (l : Logger) (args : list string) := zap.Infoln (logger l) args.
Definition Logger_Warn (l : Logger) (args : list string) := zap.Warn (logger l) args.
Definition Logger_Warnf (l : Logger) (template : string) (args : list string) :=
  zap.Warnf (logger l) template args.
Definition Logger_Warnln (l : Logger) (args : list string) := zap.Warnln (logger l) args.

(** The eighteen methods as data, to range over them. *)
Inductive Method : Type :=
| MPanic | MPanicf | MPanicln
| MDebug | MDebugf | MDebugln
| MError | MErrorf | MErrorln
| MFatal | MFatalf | MFatalln
| MInfo | MInfof | MInfoln
| MWarn | MWarnf | MWarnln.

(** A call of a method; the methods without a template ignore it. *)
Definition call (l : Logger) (m : Method) (template : string) (args : list string)
  : list zap.Written * zap.Outcome :=
  match m with
  | MPanic => Logger_Panic l args
  | MPanicf => Logger_Panicf l template args
  | MPanicln => Logger_Panicln l args
  | MDebug => Logger_Debug l args
  | MDebugf => Logger_Debugf l template args
  | MDebugln => Logger_Debugln l args
  | MError => Logger_Error l args
  | MErrorf => Logger_Errorf l template args
  | MErrorln => Logger_Errorln l args
  | MFatal => Logger_Fatal l args
  | MFatalf => Logger_Fatalf l template args
  | MFatalln => Logger_Fatalln l args
  | MInfo => Logger_Info l args
  | MInfof => Logger_Infof l template args
  | MInfoln => Logger_Infoln l args
  | MWarn => Logger_Warn l args
  | MWarnf => Logger_Warnf l template args
  | MWarnln => Logger_Warnln l args
  end.

(** The severity a method is named after, on the scale of [level]:
    [Debug < Info < Warn < Error], and above [Error] the three severities
    that have no constant in the package, in zap's order. *)
Definition methodSeverity (m : Method) : level :=
  match m with
  | MDebug | MDebugf | MDebugln => Debug
  | MInfo | MInfof | MInfoln => Info
  | MWarn | MWarnf | MWarnln => Warn
  | MError | MErrorf | MErrorln => Error
  | MPanic | MPanicf => Error + 1
  | MPanicln => Error + 2
  | MFatal | MFatalf | MFatalln => Error + 3
  end.

(** The level at which the zap method behind a facade method logs. *)
Definition methodLevel (m : Method) : zapcore.Level :=
  match m with
  | MDebug | MDebugf | MDebugln => zapcore.DebugLevel
  | MInfo | MInfof | MInfoln => zapcore.InfoLevel
  | MWarn | MWarnf | MWarnln => zapcore.WarnLevel
  | MError | MErrorf | MErrorln => zapcore.ErrorLevel
  | MPanic | MPanicf => zapcore.DPanicLevel
  | MPanicln => zapcore.PanicLevel
  | MFatal | MFatalf | MFatalln => zapcore.FatalLevel
  end.

Definition methodMessage (m : Method) (template : string) (args : list string)
  : zap.Message :=
  match m with
  | MPanic | MDebug | MError | MFatal | MInfo | MWarn => zap.Sprint args
  | MPanicf | MDebugf | MErrorf | MFatalf | MInfof | MWarnf => zap.Sprintf template args
  | MPanicln | MDebugln | MErrorln | MFatalln | MInfoln | MWarnln => zap.Sprintln args
  end.

(** ** Observations on a call *)

Definition sinksOf (ws : list zap.Written) : list zapcore.Sink :=
  map zap.sink ws.

(** The standard streams among the sinks written, in order. *)
Fixpoint streamsOf (ws : list zap.Written) : list os.File :=
  match ws with
  | [] => []
  | w :: rest =>
      match zap.sink w with
      | zapcore.toStream f => f :: streamsOf rest
      | zapcore.toRotatingFile _ => streamsOf rest
      end
  end.

(** The rotating files among the sinks written, by file name, in order. *)
Fixpoint filesOf (ws : list zap.Written) : list string :=
  match ws with
  | [] => []
  | w :: rest =>
      match zap.sink w with
      | zapcore.toStream _ => filesOf rest
      | zapcore.toRotatingFile lj => lumberjack.Filename lj :: filesOf rest
      end
  end.

Definition returns (o : zap.Outcome) : bool :=
  match o with
  | zap.Returned => true
  | _ => false
  end.

Definition panics (o : zap.Outcome) : bool :=
  match o with
  | zap.Panicked _ => true
  | _ => false
  end.

(** The encoders of the writing cores of a sink, in order. *)
Fixpoint encodersOf (c : zapcore.Core) : list zapcore.Encoder :=
  match c with
  | zapcore.ioCore enc _ _ => [enc]
  | zapcore.multiCore cores =>
      (fix all (l : list zapcore.Core) : list zapcore.Encoder :=
         match l with
         | [] => []
         | x :: rest => encodersOf x ++ all rest
         end) cores
  | zapcore.nopCore => []
  end.

(** The writers a multiplexer holds; any other writer holds itself. *)
Definition attached (w : zapcore.WriteSyncer) : list zapcore.WriteSyncer :=
  match w with
  | zapcore.multiWriteSyncer ws => ws
  | _ => [w]
  end.

(** The named severities of the package. *)
Definition severities : list level := [Debug; Info; Warn; Error].

(** Whether one of the writers that take the entry faults. *)
Definition faulty (cs : list (zapcore.Encoder * zapcore.WriteSyncer)) : bool :=
  existsb (fun c => snd (zapcore.Write (snd c))) cs.


(** The file core of a composite sink built by [newLogger], if it has one:
    the tee holds the console core first and the file core second. *)
Definition fileCoreOf (sink : zapcore.Core) : option zapcore.Core :=
  match sink with
  | zapcore.multiCore [zapcore.multiCore _; zapcore.ioCore enc out enab] =>
      Some (zapcore.ioCore enc out enab)
  | _ => None
  end.

(** The encoder configuration [New] hands to [newLogger]. *)
Definition configFor (devBase prodBase : zapcore.EncoderConfig) (md : mode)
  : zapcore.EncoderConfig :=
  if md =? Production then productionEncoderConfig prodBase
  else developmentEncoderConfig devBase.

(** The statement that [New] reports exactly the paths that cannot be
    opened, over a file system given by [canOpen]. *)
Definition reportsOpenFailures (canOpen : string -> bool)
    (devBase prodBase : zapcore.EncoderConfig)
    (name : string) (md : mode) (minLevel : level) (filePaths : list string) : Prop :=
  snd (New devBase prodBase name md minLevel filePaths) <> None
  <-> exists p, In p filePaths /\ canOpen p = false.

(** A handle for the closed examples: the wrapper [GetGlobal] returns once
    a logger over the production console core, floor [Info], has been
    installed as zap's global logger. *)
Definition consoleHandle : Logger :=
  GetGlobal (zap.New (consoleCore Info
                        (productionEncoderConfig zap.NewProductionEncoderConfig))).

(* ================================================================== *)
(** ** Properties of the library model *)

Lemma Named_core (s : string) (log : zap.Logger) :
  zap.core (zap.Named s log) = zap.core log.
Proof.
  unfold zap.Named. destruct (String.eqb s ""); reflexivity.
Qed.

Lemma Named_development (s : string) (log : zap.Logger) :
  zap.development (zap.Named s log) = zap.development log.
Proof.
  unfold zap.Named. destruct (String.eqb s ""); reflexivity.
Qed.

Lemma Named_New_name (s : string) (c : zapcore.Core) :
  zap.name (zap.Named s (zap.New c)) = s.
Proof.
  unfold zap.Named. destruct (String.eqb_spec s "") as [E | E].
  - subst s. reflexivity.
  - reflexivity.
Qed.

Lemma writeCores_fault (ent : zap.Entry) cs :
  snd (zap.writeCores ent cs) = faulty cs.
Proof.
  induction cs as [| [enc out] rest IH]; simpl.
  - reflexivity.
  - destruct (zapcore.Write out) as [sinks fault]; simpl.
    destruct fault; simpl.
    + reflexivity.
    + destruct (zap.writeCores ent rest) as [more f]; simpl in *. exact IH.
Qed.

Lemma writeCores_entries (ent : zap.Entry) cs :
  Forall (fun w => zap.entry w = ent) (fst (zap.writeCores ent cs)).
Proof.
  induction cs as [| [enc out] rest IH]; simpl.
  - constructor.
  - destruct (zapcore.Write out) as [sinks fault].
    assert (H : Forall (fun w => zap.entry w = ent)
                  (map (fun s => {| zap.sink := s; zap.encoder := enc; zap.entry := ent |})
                       sinks)).
    { apply Forall_forall. intros w Hw. apply in_map_iff in Hw.
      destruct Hw as [s0 [<- _]]. reflexivity. }
    destruct fault; simpl.
    + exact H.
    + destruct (zap.writeCores ent rest) as [more f]; simpl in *.
      apply Forall_app. split; assumption.
Qed.

(** Without a faulting writer every sink of every core that takes the
    entry is written, in order. *)
Lemma writeCores_complete (ent : zap.Entry) cs :
  faulty cs = false ->
  sinksOf (fst (zap.writeCores ent cs))
  = flat_map (fun c => fst (zapcore.Write (snd c))) cs.
Proof.
  unfold sinksOf.
  induction cs as [| [enc out] rest IH]; simpl; intros Hf.
  - reflexivity.
  - apply orb_false_elim in Hf. destruct Hf as [Hout Hrest].
    destruct (zapcore.Write out) as [sinks fault]; simpl in *. subst fault.
    specialize (IH Hrest).
    destruct (zap.writeCores ent rest) as [more f]; simpl in *.
    rewrite map_app, map_map. simpl. rewrite map_id. rewrite IH. reflexivity.
Qed.

(** Every entry a log call writes carries the level of the call. *)
Lemma log_levels (s : zap.SugaredLogger) lvl msg :
  Forall (fun w => zap.Level (zap.entry w) = lvl) (fst (zap.log s lvl msg)).
Proof.
  unfold zap.log.
  destruct ((lvl <? zapcore.DPanicLevel) && negb (zapcore.Enabled (zap.core (zap.base s)) lvl)).
  - constructor.
  - pose proof (writeCores_entries
                  {| zap.Level := lvl; zap.LoggerName := zap.name (zap.base s); zap.Msg := msg |}
                  (zapcore.Check (zap.core (zap.base s)) lvl)) as H.
    destruct (zap.writeCores _ _) as [ws fault]. simpl in H.
    assert (H' : Forall (fun w => zap.Level (zap.entry w) = lvl) ws).
    { eapply Forall_impl; [| exact H]. intros w Hw. simpl in Hw. rewrite Hw. reflexivity. }
    destruct fault; exact H'.
Qed.

(** A facade call is the zap log call at the level and with the message
    form of its method. *)
Lemma call_log (l : Logger) (m : Method) template args :
  call l m template args
  = zap.log (logger l) (methodLevel m) (methodMessage m template args).
Proof.
  destruct m; reflexivity.
Qed.

(** The two scales agree: zap's levels are the severities moved down by one. *)
Lemma methodLevel_severity (m : Method) :
  methodLevel m = methodSeverity m - 1.
Proof.
  destruct m; reflexivity.
Qed.

(* ================================================================== *)
(** ** Properties of the configuration builder *)

(** Decide every integer comparison of the goal, dropping the impossible
    combinations. *)
Ltac Zcompare :=
  repeat match goal with
         | |- context [?a <=? ?b] => destruct (Z.leb_spec a b); try lia
         | |- context [?a <? ?b] => destruct (Z.ltb_spec a b); try lia
         | |- context [?a =? ?b] => destruct (Z.eqb_spec a b); try lia
         end.

Lemma zapLevel_cases (m : level) :
  zapLevel m = zapcore.DebugLevel \/ zapLevel m = zapcore.InfoLevel
  \/ zapLevel m = zapcore.ErrorLevel.
Proof.
  unfold zapLevel.
  destruct (m =? Debug); [left; reflexivity |].
  destruct (m =? Error); [right; right; reflexivity | right; left; reflexivity].
Qed.

(** The loop of [pathCore] leaves the nil entries of [make] in front. *)
Lemma pathFiles_shape (paths : list string) :
  pathFiles paths
  = repeat zapcore.nilWriteSyncer (List.length paths)
    ++ map (fun p => zapcore.AddSync (rotating p)) paths.
Proof.
  unfold pathFiles.
  generalize (repeat zapcore.nilWriteSyncer (List.length paths)) as init.
  induction paths as [| p ps IH]; intros init; simpl.
  - rewrite app_nil_r. reflexivity.
  - rewrite IH, <- app_assoc. reflexivity.
Qed.

Lemma pathFiles_length (paths : list string) :
  List.length (pathFiles paths) = (2 * List.length paths)%nat.
Proof.
  rewrite pathFiles_shape, length_app, repeat_length, length_map. lia.
Qed.

(** With at least one path the writer is the multiplexer and its first
    entry is nil. *)
Lemma pathWriter_shape (p : string) (ps : list string) :
  exists rest,
    rest <> []
    /\ zapcore.NewMultiWriteSyncer (pathFiles (p :: ps))
       = zapcore.multiWriteSyncer (zapcore.nilWriteSyncer :: rest).
Proof.
  rewrite pathFiles_shape. simpl.
  exists (repeat zapcore.nilWriteSyncer (List.length ps)
          ++ zapcore.AddSync (rotating p)
             :: map (fun q => zapcore.AddSync (rotating q)) ps).
  split.
  - intros H. apply app_eq_nil in H. destruct H as [_ H]. discriminate H.
  - destruct (repeat zapcore.nilWriteSyncer (List.length ps)); reflexivity.
Qed.

Lemma pathWriter_faults (p : string) (ps : list string) :
  zapcore.Write (zapcore.NewMultiWriteSyncer (pathFiles (p :: ps))) = ([], true).
Proof.
  destruct (pathWriter_shape p ps) as [rest [_ E]]. rewrite E. reflexivity.
Qed.

Section Builder.

Variables devBase prodBase : zapcore.EncoderConfig.

(** [New] always succeeds, and the handle wraps the tee of the console
    core and, when paths are given, the file core. *)
Lemma New_total (name : string) (md : mode) (m : level) (paths : list string) :
  exists l,
    New devBase prodBase name md m paths = (Some l, None)
    /\ logger l
       = zap.Sugar (zap.Named name (zap.New (zapcore.NewTee
           (consoleCore m (configFor devBase prodBase md)
            :: match paths with
               | [] => []
               | _ :: _ => [fst (pathCore m (configFor devBase prodBase md) paths)]
               end)))).
Proof.
  unfold New, configFor.
  destruct (md =? Production); destruct paths as [| p ps];
    eexists; split; reflexivity.
Qed.

(** What a handle built by [New] does with a log call at level [lvl]:
    below the mapped floor nothing happens; from the floor on, exactly one
    console line is written, to standard output below [ErrorLevel] and to
    standard error from there on; then, with file paths, the file core's
    writer faults on its first, nil, entry; without, the terminal action
    of the level follows. *)
Lemma log_New (name : string) (md : mode) (m : level) (paths : list string)
    (l : Logger) (lvl : zapcore.Level) (msg : zap.Message) :
  New devBase prodBase name md m paths = (Some l, None) ->
  zap.log (logger l) lvl msg
  = if lvl <? zapLevel m then ([], zap.Returned)
    else
      ([ {| zap.sink := zapcore.toStream
                          (if lvl <? zapcore.ErrorLevel then os.Stdout else os.Stderr);
            zap.encoder := zapcore.ConsoleEncoder (configFor devBase prodBase md);
            zap.entry := {| zap.Level := lvl; zap.LoggerName := name; zap.Msg := msg |} |} ],
       match paths with
       | [] => zap.after (zap.terminalAction (zap.base (logger l)) lvl) msg
       | _ :: _ => zap.Panicked zap.NilDereference
       end).
Proof.
  intros HNew.
  destruct (New_total name md m paths) as [l' [E Hl]].
  rewrite E in HNew. injection HNew as <-.
  unfold zap.log. rewrite Hl. cbn [zap.base zap.Sugar].
  rewrite Named_core, Named_New_name. cbn [zap.core zap.New].
  set (cfg := configFor devBase prodBase md).
  unfold consoleCore, pathCore, infoPriority, errorPriority, zapcore.NewCore,
    zapcore.NewConsoleEncoder, zapcore.NewJSONEncoder, zapcore.Level_Enabled.
  unfold zapcore.DPanicLevel, zapcore.ErrorLevel.
  destruct paths as [| p ps].
  - cbn [zapcore.NewTee zapcore.Enabled zapcore.Check fst app].
    destruct (zapLevel_cases m) as [Hz | [Hz | Hz]]; rewrite Hz;
      unfold zapcore.DebugLevel, zapcore.InfoLevel, zapcore.ErrorLevel;
      Zcompare; reflexivity.
  - cbn [zapcore.NewTee zapcore.Enabled zapcore.Check fst app].
    destruct (zapLevel_cases m) as [Hz | [Hz | Hz]]; rewrite Hz;
      unfold zapcore.DebugLevel, zapcore.InfoLevel, zapcore.ErrorLevel;
      Zcompare; cbn [andb negb app zap.writeCores];
      rewrite ?(pathWriter_faults p ps); reflexivity.
Qed.

End Builder.

(* ================================================================== *)
(** ** The severity floor *)

Section Floor.

Variables devBase prodBase : zapcore.EncoderConfig.

(** Below the floor as [zapLevel] maps it, a call writes nothing and
    returns. *)
Lemma below_mapped_floor_silent name md m paths l meth template args :
  New devBase prodBase name md m paths = (Some l, None) ->
  methodLevel meth < zapLevel m ->
  call l meth template args = ([], zap.Returned).
Proof.
  intros HNew Hlt.
  rewrite call_log, (log_New devBase prodBase name md m paths l _ _ HNew).
  destruct (Z.ltb_spec (methodLevel meth) (zapLevel m)); [reflexivity | lia].
Qed.

(** On the named severities the floor holds for every pair but one: a
    floor of [Warn] with a call at [Info]. *)
Lemma below_floor_silent name md m paths l meth template args :
  New devBase prodBase name md m paths = (Some l, None) ->
  In m severities ->
  methodSeverity meth < m ->
  ~ (m = Warn /\ methodSeverity meth = Info) ->
  call l meth template args = ([], zap.Returned).
Proof.
  intros HNew Hm Hlt Hnot.
  apply (below_mapped_floor_silent name md m paths); [exact HNew |].
  rewrite methodLevel_severity.
  assert (Hs : 0 <= methodSeverity meth) by (destruct meth; cbv; discriminate).
  revert Hlt Hnot Hs. generalize (methodSeverity meth) as s. intros s Hlt Hnot Hs.
  destruct Hm as [<- | [<- | [<- | [<- | []]]]].
  - change (zapLevel Debug) with (-1). unfold Debug in Hlt. lia.
  - change (zapLevel Info) with 0. unfold Info in Hlt. lia.
  - change (zapLevel Warn) with 0.
    assert (s <> Info) by (intros E; apply Hnot; split; [reflexivity | exact E]).
    unfold Warn in Hlt. unfold Info in *. lia.
  - change (zapLevel Error) with 2. unfold Error in Hlt. lia.
Qed.

(** C1, at the input where the code departs from it: with the floor
    configured at [Warn], a call of [Info], a severity below [Warn], is
    written to standard output.  [zapLevel] has no case for [Warn] and maps
    it to [InfoLevel]. *)
Theorem warn_floor_lets_info_through :
  exists l,
    New devBase prodBase "svc" Production Warn [] = (Some l, None)
    /\ methodSeverity MInfo < Warn
    /\ zapLevel Warn = zapcore.InfoLevel
    /\ sinksOf (fst (call l MInfo "" ["started"])) = [zapcore.toStream os.Stdout]
    /\ snd (call l MInfo "" ["started"]) = zap.Returned.
Proof.
  eexists. split; [reflexivity |].
  repeat split; reflexivity.
Qed.

End Floor.

(* ================================================================== *)
(** ** The file core *)

Section FileCore.

Variables devBase prodBase : zapcore.EncoderConfig.

(** The sink has a file core exactly when a path is given; it encodes as
    JSON with the configuration of the mode and is enabled from the mapped
    floor on. *)
Lemma file_core_iff_paths name md m paths :
  exists l,
    New devBase prodBase name md m paths = (Some l, None)
    /\ (fileCoreOf (zap.core (zap.base (logger l))) <> None <-> paths <> [])
    /\ (paths <> [] ->
        fileCoreOf (zap.core (zap.base (logger l)))
        = Some (zapcore.ioCore
                  (zapcore.JSONEncoder (configFor devBase prodBase md))
                  (zapcore.NewMultiWriteSyncer (pathFiles paths))
                  (zapcore.Level_Enabled (zapLevel m)))).
Proof.
  destruct (New_total devBase prodBase name md m paths) as [l [E Hl]].
  exists l. split; [exact E |].
  rewrite Hl. cbn [zap.base zap.Sugar]. rewrite Named_core. cbn [zap.core zap.New].
  destruct paths as [| p ps].
  - split.
    + split; intros H; exfalso; apply H; reflexivity.
    + intros H. exfalso. apply H. reflexivity.
  - split.
    + split; intros _; discriminate.
    + intros _. reflexivity.
Qed.

(** Every rotating writer of [pathCore] rotates at 1000, whatever the
    mode, and there is one for each path, in order. *)
Lemma rotating_writers paths :
  filter (fun w => match w with zapcore.AddSync _ => true | _ => false end)
         (pathFiles paths)
  = map (fun p => zapcore.AddSync (rotating p)) paths
  /\ forall p, lumberjack.MaxSize (rotating p) = 1000
               /\ lumberjack.Filename (rotating p) = p.
Proof.
  split; [| intros p; split; reflexivity].
  rewrite pathFiles_shape, filter_app.
  replace (filter _ (repeat zapcore.nilWriteSyncer (List.length paths)))
    with (@nil zapcore.WriteSyncer).
  - simpl. induction paths as [| p ps IH]; simpl; [reflexivity | now rewrite IH].
  - induction (List.length paths) as [| n IH]; simpl; [reflexivity | exact IH].
Qed.

(** With file paths no call ever reaches a file: a call that the floor
    lets through writes its console line and then faults on the nil entry
    in front of the rotating writers. *)
Lemma file_never_written name md m p ps l meth template args :
  New devBase prodBase name md m (p :: ps) = (Some l, None) ->
  filesOf (fst (call l meth template args)) = []
  /\ (zapLevel m <= methodLevel meth ->
      snd (call l meth template args) = zap.Panicked zap.NilDereference).
Proof.
  intros HNew.
  rewrite call_log, (log_New devBase prodBase name md m (p :: ps) l _ _ HNew).
  destruct (Z.ltb_spec (methodLevel meth) (zapLevel m)).
  - split; [reflexivity | lia].
  - split; reflexivity.
Qed.

(** C2, at the input where the code departs from it: for the one path
    ["/tmp/log.json"] the multiplexer of the file core holds two writers,
    a nil one in front of the rotating writer; an [Info] call that the
    floor lets through writes its console line, faults on the nil writer
    and never reaches the file. *)
Theorem file_writer_holds_nil_entries :
  exists l enc out enab,
    New devBase prodBase "svc" Production Info ["/tmp/log.json"] = (Some l, None)
    /\ fileCoreOf (zap.core (zap.base (logger l))) = Some (zapcore.ioCore enc out enab)
    /\ attached out
       = [zapcore.nilWriteSyncer; zapcore.AddSync (rotating "/tmp/log.json")]
    /\ enab (methodLevel MInfo) = true
    /\ sinksOf (fst (call l MInfo "" ["started"])) = [zapcore.toStream os.Stdout]
    /\ filesOf (fst (call l MInfo "" ["started"])) = []
    /\ snd (call l MInfo "" ["started"]) = zap.Panicked zap.NilDereference.
Proof.
  do 4 eexists. split; [reflexivity |].
  split; [reflexivity |].
  repeat split; reflexivity.
Qed.

(** C6, at the input where the code departs from it: with the floor at
    [Warn] the file core is enabled at [InfoLevel], the level of an [Info]
    call, a severity outside [[Warn, +inf)]; and its writer is not a
    rotating writer alone, it holds a nil writer in front. *)
Theorem file_core_at_warn_floor :
  exists l enc out enab,
    New devBase prodBase "svc" Production Warn ["/tmp/log.json"] = (Some l, None)
    /\ fileCoreOf (zap.core (zap.base (logger l))) = Some (zapcore.ioCore enc out enab)
    /\ zapcore.isJSON enc = true
    /\ methodSeverity MInfo < Warn
    /\ enab (methodLevel MInfo) = true
    /\ attached out
       = [zapcore.nilWriteSyncer; zapcore.AddSync (rotating "/tmp/log.json")].
Proof.
  do 4 eexists. split; [reflexivity |].
  split; [reflexivity |].
  repeat split; reflexivity.
Qed.

(** C3, as amended: [New] never returns an error and always returns a
    handle; [pathCore] builds the rotating writers without opening a file
    and its error result is always nil. *)
Theorem New_never_fails name md m paths :
  snd (New devBase prodBase name md m paths) = None
  /\ (exists l, fst (New devBase prodBase name md m paths) = Some l)
  /\ snd (pathCore m (configFor devBase prodBase md) paths) = None.
Proof.
  destruct (New_total devBase prodBase name md m paths) as [l [E _]].
  rewrite E. split; [reflexivity |]. split; [exists l; reflexivity | reflexivity].
Qed.

End FileCore.

(** C3 as stated fails: on a file system where no file can be opened,
    [New] with one path returns no error. *)
Lemma New_hides_open_failure :
  ~ reportsOpenFailures (fun _ => false)
      zap.NewDevelopmentEncoderConfig zap.NewProductionEncoderConfig
      "svc" Production Info ["/proc/denied/app.log"].
Proof.
  unfold reportsOpenFailures. intros [_ H].
  apply H; [| reflexivity].
  exists "/proc/denied/app.log". split; [left; reflexivity | reflexivity].
Qed.

(* ================================================================== *)
(** ** The console core and the severity mapping *)

Section Console.

Variables devBase prodBase : zapcore.EncoderConfig.




(** C5: [zapLevel] maps [Debug] to the debug level, [Error] to the error
    level and every other severity, [Info] and [Warn] among them, to the
    info level; so as a floor [Warn] gives the two console predicates of
    [Info], and under every floor an event at the warn level is taken by
    the same console cores as an event at the info level. *)
Theorem zapLevel_mapping :
  zapLevel Debug = zapcore.DebugLevel
  /\ zapLevel Error = zapcore.ErrorLevel
  /\ (forall lv : level, lv <> Debug -> lv <> Error -> zapLevel lv = zapcore.InfoLevel)
  /\ zapLevel Info = zapcore.InfoLevel
  /\ zapLevel Warn = zapcore.InfoLevel
  /\ (forall lvl, infoPriority Warn lvl = infoPriority Info lvl
                  /\ errorPriority Warn lvl = errorPriority Info lvl)
  /\ (forall m : level,
        infoPriority m zapcore.WarnLevel = infoPriority m zapcore.InfoLevel
        /\ errorPriority m zapcore.WarnLevel = errorPriority m zapcore.InfoLevel).
Proof.
  split; [reflexivity |]. split; [reflexivity |].
  split.
  { intros lv HD HE. unfold zapLevel.
    destruct (Z.eqb_spec lv Debug); [contradiction |].
    destruct (Z.eqb_spec lv Error); [contradiction | reflexivity]. }
  split; [reflexivity |]. split; [reflexivity |].
  split.
  { intros lvl. split; reflexivity. }
  intros m. unfold infoPriority, errorPriority.
  destruct (zapLevel_cases m) as [Hz | [Hz | Hz]]; rewrite Hz; split; reflexivity.
Qed.

End Console.

(* ================================================================== *)
(** ** The mode and the encoder configuration *)

Section Mode.

Variables devBase prodBase : zapcore.EncoderConfig.

(** Every encoder of the sink built by [New] carries the configuration
    chosen by the mode, and the sink has at least the console encoders. *)
Lemma encoders_of_New name md m paths :
  exists l,
    New devBase prodBase name md m paths = (Some l, None)
    /\ encodersOf (zap.core (zap.base (logger l))) <> []
    /\ Forall (fun e => zapcore.configOf e = configFor devBase prodBase md)
              (encodersOf (zap.core (zap.base (logger l)))).
Proof.
  destruct (New_total devBase prodBase name md m paths) as [l [E Hl]].
  exists l. split; [exact E |].
  rewrite Hl. cbn [zap.base zap.Sugar]. rewrite Named_core. cbn [zap.core zap.New].
  destruct paths as [| p ps]; cbn; (split; [discriminate |]);
    repeat constructor.
Qed.

(** C7: the development configuration encodes the level in colour and
    keys the message as ["message"]; the production configuration encodes
    the level plainly and keys it as ["msg"]; both encode the time as
    RFC 3339, the caller in its short form, and omit the function name;
    and [New] gives every encoder of the sink the production configuration
    in [Production] mode and the development configuration in
    [Developemnt] mode. *)
Theorem encoder_config_by_mode name m paths :
  (zapcore.EncodeLevel (developmentEncoderConfig devBase)
     = Some zapcore.CapitalColorLevelEncoder
   /\ zapcore.MessageKey (developmentEncoderConfig devBase) = "message")
  /\ (zapcore.EncodeLevel (productionEncoderConfig prodBase)
        = Some zapcore.CapitalLevelEncoder
      /\ zapcore.MessageKey (productionEncoderConfig prodBase) = "msg")
  /\ (zapcore.EncodeTime (developmentEncoderConfig devBase)
        = Some zapcore.RFC3339TimeEncoder
      /\ zapcore.EncodeCaller (developmentEncoderConfig devBase)
         = Some zapcore.ShortCallerEncoder
      /\ zapcore.FunctionKey (developmentEncoderConfig devBase) = zapcore.OmitKey)
  /\ (zapcore.EncodeTime (productionEncoderConfig prodBase)
        = Some zapcore.RFC3339TimeEncoder
      /\ zapcore.EncodeCaller (productionEncoderConfig prodBase)
         = Some zapcore.ShortCallerEncoder
      /\ zapcore.FunctionKey (productionEncoderConfig prodBase) = zapcore.OmitKey)
  /\ (exists l,
        New devBase prodBase name Developemnt m paths = (Some l, None)
        /\ encodersOf (zap.core (zap.base (logger l))) <> []
        /\ Forall (fun e => zapcore.configOf e = developmentEncoderConfig devBase)
                  (encodersOf (zap.core (zap.base (logger l)))))
  /\ (exists l,
        New devBase prodBase name Production m paths = (Some l, None)
        /\ encodersOf (zap.core (zap.base (logger l))) <> []
        /\ Forall (fun e => zapcore.configOf e = productionEncoderConfig prodBase)
                  (encodersOf (zap.core (zap.base (logger l))))).
Proof.
  split; [split; reflexivity |].
  split; [split; reflexivity |].
  split; [repeat split; reflexivity |].
  split; [repeat split; reflexivity |].
  split.
  - exact (encoders_of_New name Developemnt m paths).
  - exact (encoders_of_New name Production m paths).
Qed.

(** C10: with any mode other than [Production], the values outside the
    two named ones included, [New] returns what it returns with
    [Developemnt], built on the development configuration. *)
Theorem New_default_is_development name md m paths :
  md <> Production ->
  New devBase prodBase name md m paths
  = New devBase prodBase name Developemnt m paths
  /\ configFor devBase prodBase md = developmentEncoderConfig devBase.
Proof.
  intros Hmd. unfold New, configFor.
  destruct (Z.eqb_spec md Production) as [E | _]; [contradiction |].
  split; reflexivity.
Qed.

End Mode.

(* ================================================================== *)
(** ** The facade: panic and fatal *)

(** From [DPanicLevel] on a log call is never skipped: it writes the cores
    that take the entry and then either a writer has faulted or the
    terminal action of the level follows. *)
Lemma log_terminal (s : zap.SugaredLogger) (lvl : zapcore.Level) (msg : zap.Message) :
  zapcore.DPanicLevel <= lvl ->
  let ent := {| zap.Level := lvl; zap.LoggerName := zap.name (zap.base s);
                zap.Msg := msg |} in
  let cs := zapcore.Check (zap.core (zap.base s)) lvl in
  zap.log s lvl msg
  = (fst (zap.writeCores ent cs),
     if faulty cs then zap.Panicked zap.NilDereference
     else zap.after (zap.terminalAction (zap.base s) lvl) msg).
Proof.
  intros Hlvl ent cs. unfold zap.log.
  destruct (Z.ltb_spec lvl zapcore.DPanicLevel); [lia |].
  cbn [andb]. fold ent. fold cs.
  rewrite <- (writeCores_fault ent cs).
  destruct (zap.writeCores ent cs) as [ws fault]. destruct fault; reflexivity.
Qed.

(** C8: [Panic] and [Panicf] log at [DPanicLevel], whose terminal action
    is a panic in development and nothing otherwise: in development they
    panic, outside development they never raise the logged panic and return
    when no writer faults.  [Panicln] logs at [PanicLevel] and always
    panics, after the cores that take the entry have been written. *)
Theorem panic_family (l : Logger) (template : string) (args : list string) :
  let lg := zap.base (logger l) in
  (Forall (fun w => zap.Level (zap.entry w) = zapcore.DPanicLevel)
          (fst (Logger_Panic l args))
   /\ Forall (fun w => zap.Level (zap.entry w) = zapcore.DPanicLevel)
             (fst (Logger_Panicf l template args)))
  /\ zap.terminalAction lg zapcore.DPanicLevel
     = (if zap.development lg then zap.WriteThenPanic else zap.WriteThenNoop)
  /\ (zap.development lg = true ->
      panics (snd (Logger_Panic l args)) = true
      /\ panics (snd (Logger_Panicf l template args)) = true)
  /\ (zap.development lg = false ->
      (forall msg, snd (Logger_Panic l args) <> zap.Panicked (zap.LoggedMessage msg))
      /\ (forall msg,
            snd (Logger_Panicf l template args) <> zap.Panicked (zap.LoggedMessage msg))
      /\ (faulty (zapcore.Check (zap.core lg) zapcore.DPanicLevel) = false ->
          snd (Logger_Panic l args) = zap.Returned
          /\ snd (Logger_Panicf l template args) = zap.Returned))
  /\ Forall (fun w => zap.Level (zap.entry w) = zapcore.PanicLevel)
            (fst (Logger_Panicln l args))
  /\ panics (snd (Logger_Panicln l args)) = true
  /\ (faulty (zapcore.Check (zap.core lg) zapcore.PanicLevel) = false ->
      snd (Logger_Panicln l args) = zap.Panicked (zap.LoggedMessage (zap.Sprintln args))
      /\ sinksOf (fst (Logger_Panicln l args))
         = flat_map (fun c => fst (zapcore.Write (snd c)))
                    (zapcore.Check (zap.core lg) zapcore.PanicLevel)).
Proof.
  intros lg.
  unfold Logger_Panic, Logger_Panicf, Logger_Panicln, zap.DPanic, zap.DPanicf, zap.Panicln.
  pose proof (log_levels (logger l) zapcore.PanicLevel (zap.Sprintln args)) as HLn.
  split; [split; apply log_levels |].
  split; [reflexivity |].
  assert (HD : zapcore.DPanicLevel <= zapcore.DPanicLevel) by reflexivity.
  assert (HP : zapcore.DPanicLevel <= zapcore.PanicLevel) by (cbv; discriminate).
  revert HLn.
  rewrite !(log_terminal _ _ _ HD), !(log_terminal _ _ _ HP).
  intros HLn.
  cbn [fst snd]. fold lg.
  change (zap.terminalAction lg zapcore.DPanicLevel)
    with (if zap.development lg then zap.WriteThenPanic else zap.WriteThenNoop).
  change (zap.terminalAction lg zapcore.PanicLevel) with zap.WriteThenPanic.
  split.
  { intros Hdev. rewrite Hdev.
    destruct (faulty (zapcore.Check (zap.core lg) zapcore.DPanicLevel)); split; reflexivity. }
  split.
  { intros Hdev. rewrite Hdev.
    destruct (faulty (zapcore.Check (zap.core lg) zapcore.DPanicLevel)).
    - split; [intros msg; discriminate |]. split; [intros msg; discriminate |].
      intros H; discriminate H.
    - split; [intros msg; discriminate |]. split; [intros msg; discriminate |].
      intros _. split; reflexivity. }
  split; [exact HLn |].
  split.
  { destruct (faulty (zapcore.Check (zap.core lg) zapcore.PanicLevel)); reflexivity. }
  intros Hf. rewrite Hf. split; [reflexivity |].
  apply writeCores_complete. exact Hf.
Qed.


Section Built.

Variables devBase prodBase : zapcore.EncoderConfig.

(** A handle built by [New] is never in development: [Panic] and
    [Panicf] on it do not raise the logged panic. *)
Lemma New_not_development name md m paths :
  exists l,
    New devBase prodBase name md m paths = (Some l, None)
    /\ zap.development (zap.base (logger l)) = false.
Proof.
  destruct (New_total devBase prodBase name md m paths) as [l [E Hl]].
  exists l. split; [exact E |].
  rewrite Hl. cbn [zap.base zap.Sugar]. rewrite Named_development. reflexivity.
Qed.

(** On a handle built without file paths a fatal call writes one line to
    standard error and exits with status 1. *)
Lemma fatal_without_paths name md m l meth template args :
  New devBase prodBase name md m [] = (Some l, None) ->
  In meth [MFatal; MFatalf; MFatalln] ->
  streamsOf (fst (call l meth template args)) = [os.Stderr]
  /\ snd (call l meth template args) = zap.Exited 1.
Proof.
  intros HNew Hmeth.
  assert (Hlvl : methodLevel meth = zapcore.FatalLevel).
  { destruct Hmeth as [<- | [<- | [<- | []]]]; reflexivity. }
  rewrite call_log, Hlvl, (log_New devBase prodBase name md m [] l _ _ HNew).
  destruct (zapLevel_cases m) as [Hz | [Hz | Hz]]; rewrite Hz; split; reflexivity.
Qed.

End Built.

(* ================================================================== *)
(** ** Closed instances *)


Lemma zapLevel_mapping_witness :
  7 <> Debug /\ 7 <> Error /\ zapLevel 7 = zapcore.InfoLevel.
Proof.
  assert (H1 : 7 <> Debug) by discriminate.
  assert (H2 : 7 <> Error) by discriminate.
  split; [exact H1 |]. split; [exact H2 |].
  exact (proj1 (proj2 (proj2 zapLevel_mapping)) 7 H1 H2).
Defined.

Lemma panic_family_witness :
  zap.development (zap.base (logger consoleHandle)) = false
  /\ faulty (zapcore.Check (zap.core (zap.base (logger consoleHandle)))
                           zapcore.DPanicLevel) = false
  /\ snd (Logger_Panic consoleHandle ["assert"]) = zap.Returned
  /\ snd (Logger_Panicf consoleHandle "%s" ["assert"]) = zap.Returned.
Proof.
  assert (H1 : zap.development (zap.base (logger consoleHandle)) = false) by reflexivity.
  assert (H2 : faulty (zapcore.Check (zap.core (zap.base (logger consoleHandle)))
                                     zapcore.DPanicLevel) = false) by reflexivity.
  split; [exact H1 |]. split; [exact H2 |].
  destruct (panic_family consoleHandle "%s" ["assert"]) as [_ [_ [_ [Hnodev _]]]].
  destruct (Hnodev H1) as [_ [_ Hret]].
  exact (Hret H2).
Defined.


Lemma New_default_is_development_witness :
  7 <> Production
  /\ New zap.NewDevelopmentEncoderConfig zap.NewProductionEncoderConfig
         "svc" 7 Info ["/tmp/log.json"]
     = New zap.NewDevelopmentEncoderConfig zap.NewProductionEncoderConfig
         "svc" Developemnt Info ["/tmp/log.json"].
Proof.
  assert (H1 : 7 <> Production) by discriminate.
  split; [exact H1 |].
  exact (proj1 (New_default_is_development
                  zap.NewDevelopmentEncoderConfig zap.NewProductionEncoderConfig
                  "svc" 7 Info ["/tmp/log.json"] H1)).
Defined.


(* ================================================================== *)
(** ** Further properties: the floor over every value of [level] *)

Section FloorValues.

Variables devBase prodBase : zapcore.EncoderConfig.

(** X1: every floor other than [Debug] and [Error], [Warn] and the values
    outside the four named ones included, builds exactly the logger that
    the floor [Default], that is [Info], builds. *)
Theorem floor_default_branch name md (m : level) paths :
  m <> Debug ->
  m <> Error ->
  New devBase prodBase name md m paths = New devBase prodBase name md Default paths.
Proof.
  intros HD HE.
  assert (Hz : zapLevel m = zapcore.InfoLevel).
  { unfold zapLevel.
    destruct (Z.eqb_spec m Debug); [contradiction |].
    destruct (Z.eqb_spec m Error); [contradiction | reflexivity]. }
  unfold New, newLogger, consoleCore, pathCore, infoPriority, errorPriority.
  rewrite Hz. reflexivity.
Qed.

(** X2: which calls a handle built by [New] writes, for every floor: all of
    them under the floor [Debug]; under the floor [Error] those of severity
    [Error] and above; under any other floor those of severity [Info] and
    above. *)
Theorem written_iff name md (m : level) paths meth template args :
  exists l,
    New devBase prodBase name md m paths = (Some l, None)
    /\ (fst (call l meth template args) <> []
        <-> (m = Debug
             \/ (m <> Error /\ Info <= methodSeverity meth)
             \/ Error <= methodSeverity meth)).
Proof.
  destruct (New_total devBase prodBase name md m paths) as [l [E _]].
  exists l. split; [exact E |].
  rewrite call_log, (log_New devBase prodBase name md m paths l _ _ E).
  rewrite methodLevel_severity.
  assert (Hs : 0 <= methodSeverity meth) by (destruct meth; cbv; discriminate).
  revert Hs. generalize (methodSeverity meth) as s. intros s Hs.
  unfold zapLevel, zapcore.DebugLevel, zapcore.InfoLevel, zapcore.ErrorLevel.
  unfold Debug, Info, Error.
  destruct (Z.eqb_spec m 0); [| destruct (Z.eqb_spec m 3)];
    match goal with
    | |- context [?a <? ?b] => destruct (Z.ltb_spec a b)
    end; cbn [fst]; split; intros Hw; try lia; try discriminate;
    try (exfalso; apply Hw; reflexivity).
Qed.

(** X3: under every floor a call on a handle built by [New] writes at most
    one line; the line goes to a standard stream through the console
    encoder, standard output for a severity below [Error] and standard
    error otherwise; and nothing is ever written to a file. *)
Theorem at_most_one_console_line name md (m : level) paths meth template args :
  exists l,
    New devBase prodBase name md m paths = (Some l, None)
    /\ (fst (call l meth template args) = []
        \/ exists w,
             fst (call l meth template args) = [w]
             /\ zap.sink w
                = zapcore.toStream
                    (if methodSeverity meth <? Error then os.Stdout else os.Stderr)
             /\ zap.encoder w = zapcore.ConsoleEncoder (configFor devBase prodBase md))
    /\ filesOf (fst (call l meth template args)) = [].
Proof.
  destruct (New_total devBase prodBase name md m paths) as [l [E _]].
  exists l. split; [exact E |].
  rewrite call_log, (log_New devBase prodBase name md m paths l _ _ E).
  destruct (methodLevel meth <? zapLevel m).
  - split; [left; reflexivity | reflexivity].
  - split; [| reflexivity].
    right. eexists. split; [reflexivity |]. split; [| reflexivity].
    cbn [zap.sink]. rewrite methodLevel_severity.
    unfold zapcore.ErrorLevel, Error.
    destruct (Z.ltb_spec (methodSeverity meth - 1) 2);
      destruct (Z.ltb_spec (methodSeverity meth) 3); try lia; reflexivity.
Qed.

End FloorValues.

(** X4: for every floor and every level the two console predicates never
    both hold, together they hold exactly from the mapped floor on, and the
    predicate of standard error does not depend on the floor: it holds
    exactly from [ErrorLevel] on. *)
Theorem console_bands_partition (m : level) (lv : zapcore.Level) :
  infoPriority m lv && errorPriority m lv = false
  /\ infoPriority m lv || errorPriority m lv = (zapLevel m <=? lv)
  /\ errorPriority m lv = (zapcore.ErrorLevel <=? lv)
  /\ infoPriority Error lv = false.
Proof.
  unfold infoPriority, errorPriority.
  change (zapLevel Error) with 2. unfold zapcore.ErrorLevel.
  destruct (zapLevel_cases m) as [Hz | [Hz | Hz]]; rewrite Hz;
    unfold zapcore.DebugLevel, zapcore.InfoLevel, zapcore.ErrorLevel;
    repeat split; Zcompare; reflexivity.
Qed.

(** On the four named severities [zapLevel] keeps the order. *)
Lemma zapLevel_monotone (m1 m2 : level) :
  In m1 severities -> In m2 severities -> m1 <= m2 -> zapLevel m1 <= zapLevel m2.
Proof.
  intros H1 H2 Hle.
  destruct H1 as [<- | [<- | [<- | [<- | []]]]];
    destruct H2 as [<- | [<- | [<- | [<- | []]]]];
    first [ cbv; discriminate | exfalso; apply Hle; reflexivity ].
Qed.

Section FilePaths.

Variables devBase prodBase : zapcore.EncoderConfig.

(** X5: between two named floors, the lower one hides nothing the higher
    one shows: a call written under the floor [m2] is written, with the same
    lines, under any named floor [m1 <= m2]. *)
Theorem lower_floor_keeps_lines name md (m1 m2 : level) paths l1 l2 meth template args :
  In m1 severities ->
  In m2 severities ->
  m1 <= m2 ->
  New devBase prodBase name md m1 paths = (Some l1, None) ->
  New devBase prodBase name md m2 paths = (Some l2, None) ->
  fst (call l2 meth template args) <> [] ->
  fst (call l1 meth template args) = fst (call l2 meth template args).
Proof.
  intros H1 H2 Hle E1 E2.
  pose proof (zapLevel_monotone m1 m2 H1 H2 Hle) as Hmono.
  rewrite !call_log.
  rewrite (log_New devBase prodBase name md m1 paths l1 _ _ E1).
  rewrite (log_New devBase prodBase name md m2 paths l2 _ _ E2).
  destruct (Z.ltb_spec (methodLevel meth) (zapLevel m2)).
  - intros Hw. exfalso. apply Hw. reflexivity.
  - intros _.
    destruct (Z.ltb_spec (methodLevel meth) (zapLevel m1)); [lia | reflexivity].
Qed.

(** X6: for [n] paths the slice handed to the multiplexer has [2 * n]
    entries: entry [i] is nil for [i < n], and entry [n + i] is the rotating
    writer, of size 1000, on the [i]-th path; so with at least one path the
    writer of the file core is always the multiplexer, never a rotating
    writer on its own. *)
Theorem pathFiles_entries (paths : list string) :
  List.length (pathFiles paths) = (2 * List.length paths)%nat
  /\ (forall i, (i < List.length paths)%nat ->
        nth_error (pathFiles paths) i = Some zapcore.nilWriteSyncer)
  /\ (forall i p, nth_error paths i = Some p ->
        nth_error (pathFiles paths) (List.length paths + i)
        = Some (zapcore.AddSync (rotating p))
        /\ lumberjack.Filename (rotating p) = p
        /\ lumberjack.MaxSize (rotating p) = 1000)
  /\ (paths <> [] ->
      zapcore.NewMultiWriteSyncer (pathFiles paths)
      = zapcore.multiWriteSyncer (pathFiles paths)).
Proof.
  split; [apply pathFiles_length |].
  split.
  { intros i Hi. rewrite pathFiles_shape.
    rewrite nth_error_app1 by (rewrite repeat_length; exact Hi).
    apply nth_error_repeat. exact Hi. }
  split.
  { intros i p Hp. split; [| split; reflexivity].
    rewrite pathFiles_shape.
    rewrite nth_error_app2 by (rewrite repeat_length; lia).
    rewrite repeat_length.
    replace (List.length paths + i - List.length paths)%nat with i by lia.
    apply (map_nth_error (fun q => zapcore.AddSync (rotating q))). exact Hp. }
  intros Hne. destruct paths as [| p ps]; [contradiction |].
  pose proof (pathFiles_length (p :: ps)) as Hlen.
  unfold zapcore.NewMultiWriteSyncer.
  destruct (pathFiles (p :: ps)) as [| w [| w' ws]]; simpl in Hlen;
    [reflexivity | lia | reflexivity].
Qed.

(** X7: on a handle built with at least one file path, a call below the
    mapped floor does nothing, and every other call, of any method, writes
    its one console line and then leaves by the nil-dereference panic of
    the file writer; no call reaches a file and none exits the process, the
    fatal ones included. *)
Theorem file_paths_break_accepted_calls name md (m : level) p ps meth template args :
  exists l,
    New devBase prodBase name md m (p :: ps) = (Some l, None)
    /\ (methodLevel meth < zapLevel m ->
        call l meth template args = ([], zap.Returned))
    /\ (zapLevel m <= methodLevel meth ->
        snd (call l meth template args) = zap.Panicked zap.NilDereference
        /\ List.length (fst (call l meth template args)) = 1%nat)
    /\ filesOf (fst (call l meth template args)) = []
    /\ (forall code, snd (call l meth template args) <> zap.Exited code).
Proof.
  destruct (New_total devBase prodBase name md m (p :: ps)) as [l [E _]].
  exists l. split; [exact E |].
  rewrite call_log, (log_New devBase prodBase name md m (p :: ps) l _ _ E).
  destruct (Z.ltb_spec (methodLevel meth) (zapLevel m)).
  - split; [reflexivity |]. split; [lia |]. split; [reflexivity |].
    intros code. discriminate.
  - split; [lia |]. split; [intros _; split; reflexivity |].
    split; [reflexivity |]. intros code. discriminate.
Qed.

(** X8: on a handle built without file paths, in either mode and under any
    floor, the way a call leaves depends on the method alone: the three
    fatal methods exit with status 1, [Panicln] panics with its message,
    and every other method returns, [Panic] and [Panicf] included, since
    [New] never puts zap in development. *)
Theorem outcome_without_paths name md (m : level) meth template args :
  exists l,
    New devBase prodBase name md m [] = (Some l, None)
    /\ snd (call l meth template args)
       = match meth with
         | MFatal | MFatalf | MFatalln => zap.Exited 1
         | MPanicln => zap.Panicked (zap.LoggedMessage (zap.Sprintln args))
         | _ => zap.Returned
         end.
Proof.
  destruct (New_total devBase prodBase name md m []) as [l [E Hl]].
  exists l. split; [exact E |].
  rewrite call_log, (log_New devBase prodBase name md m [] l _ _ E).
  unfold zap.terminalAction. rewrite Hl. cbn [zap.base zap.Sugar].
  rewrite Named_development. cbn [zap.development zap.New].
  destruct meth; destruct (zapLevel_cases m) as [Hz | [Hz | Hz]]; rewrite Hz;
    reflexivity.
Qed.

(** X9: the mode changes the encoding only: built with the same name,
    floor and paths, a handle of any mode and a handle of any other mode
    write the same entries to the same sinks and leave a call the same
    way. *)
Theorem mode_changes_encoding_only name md1 md2 (m : level) paths meth template args :
  exists l1 l2,
    New devBase prodBase name md1 m paths = (Some l1, None)
    /\ New devBase prodBase name md2 m paths = (Some l2, None)
    /\ sinksOf (fst (call l1 meth template args))
       = sinksOf (fst (call l2 meth template args))
    /\ map zap.entry (fst (call l1 meth template args))
       = map zap.entry (fst (call l2 meth template args))
    /\ snd (call l1 meth template args) = snd (call l2 meth template args).
Proof.
  destruct (New_total devBase prodBase name md1 m paths) as [l1 [E1 Hl1]].
  destruct (New_total devBase prodBase name md2 m paths) as [l2 [E2 Hl2]].
  exists l1, l2. split; [exact E1 |]. split; [exact E2 |].
  rewrite !call_log.
  rewrite (log_New devBase prodBase name md1 m paths l1 _ _ E1).
  rewrite (log_New devBase prodBase name md2 m paths l2 _ _ E2).
  unfold zap.terminalAction. rewrite Hl1, Hl2. cbn [zap.base zap.Sugar].
  rewrite !Named_development. cbn [zap.development zap.New].
  destruct (methodLevel meth <? zapLevel m); repeat split; reflexivity.
Qed.

(** X10: every entry written by a handle built by [New] carries the name
    given to [New], unchanged, the level of the method called and the
    message in the form of that method. *)
Theorem entries_of_New name md (m : level) paths meth template args :
  exists l,
    New devBase prodBase name md m paths = (Some l, None)
    /\ Forall (fun w => zap.entry w
                        = {| zap.Level := methodLevel meth;
                             zap.LoggerName := name;
                             zap.Msg := methodMessage meth template args |})
              (fst (call l meth template args)).
Proof.
  destruct (New_total devBase prodBase name md m paths) as [l [E _]].
  exists l. split; [exact E |].
  rewrite call_log, (log_New devBase prodBase name md m paths l _ _ E).
  destruct (methodLevel meth <? zapLevel m); repeat constructor.
Qed.

End FilePaths.

(* ================================================================== *)
(** ** Further properties: the facade on any handle *)

(** Where the cores write, through which encoders, and whether a writer
    faults, does not depend on the entry. *)
Lemma writeCores_routing (e1 e2 : zap.Entry) cs :
  map (fun w => (zap.sink w, zap.encoder w)) (fst (zap.writeCores e1 cs))
  = map (fun w => (zap.sink w, zap.encoder w)) (fst (zap.writeCores e2 cs))
  /\ snd (zap.writeCores e1 cs) = snd (zap.writeCores e2 cs).
Proof.
  split; [| rewrite !writeCores_fault; reflexivity].
  induction cs as [| [enc out] rest IH]; simpl; [reflexivity |].
  destruct (zapcore.Write out) as [sinks fault].
  destruct fault; simpl.
  - rewrite !map_map. reflexivity.
  - destruct (zap.writeCores e1 rest) as [w1 f1].
    destruct (zap.writeCores e2 rest) as [w2 f2]. simpl in *.
    rewrite !map_app, !map_map, IH. reflexivity.
Qed.

(** X11: on every handle, two calls of methods that log at the same level
    reach the same sinks through the same encoders, in the same order, and
    leave the same way, whatever their templates and arguments; so the
    plain, formatted and line form of [Debug], [Info], [Warn], [Error] and
    [Fatal] are routed alike. *)
Theorem same_level_same_route (l : Logger) (m1 m2 : Method)
    (t1 t2 : string) (a1 a2 : list string) :
  methodLevel m1 = methodLevel m2 ->
  map (fun w => (zap.sink w, zap.encoder w)) (fst (call l m1 t1 a1))
  = map (fun w => (zap.sink w, zap.encoder w)) (fst (call l m2 t2 a2))
  /\ returns (snd (call l m1 t1 a1)) = returns (snd (call l m2 t2 a2))
  /\ panics (snd (call l m1 t1 a1)) = panics (snd (call l m2 t2 a2)).
Proof.
  intros Hlvl. rewrite !call_log, <- Hlvl.
  generalize (methodMessage m1 t1 a1) as msg1. generalize (methodMessage m2 t2 a2) as msg2.
  generalize (methodLevel m1) as lvl. intros lvl msg2 msg1.
  unfold zap.log.
  destruct ((lvl <? zapcore.DPanicLevel)
            && negb (zapcore.Enabled (zap.core (zap.base (logger l))) lvl)).
  - repeat split; reflexivity.
  - destruct (writeCores_routing
                {| zap.Level := lvl; zap.LoggerName := zap.name (zap.base (logger l));
                   zap.Msg := msg1 |}
                {| zap.Level := lvl; zap.LoggerName := zap.name (zap.base (logger l));
                   zap.Msg := msg2 |}
                (zapcore.Check (zap.core (zap.base (logger l))) lvl)) as [Hr Hf].
    destruct (zap.writeCores _ _) as [w1 f1].
    destruct (zap.writeCores _ _) as [w2 f2]. simpl in Hr, Hf. subst f2.
    destruct f1; cbn [fst snd].
    + repeat split; [exact Hr].
    + split; [exact Hr |].
      destruct (zap.terminalAction (zap.base (logger l)) lvl); split; reflexivity.
Qed.

(** X12: on every handle, a call of one of the twelve methods of severity
    [Debug], [Info], [Warn] or [Error] never exits the process and never
    raises a logged panic: it returns, unless a writer that takes the entry
    faults. *)
Theorem plain_severities_return (l : Logger) (meth : Method)
    (template : string) (args : list string) :
  methodSeverity meth <= Error ->
  (snd (call l meth template args) = zap.Returned
   \/ snd (call l meth template args) = zap.Panicked zap.NilDereference)
  /\ (faulty (zapcore.Check (zap.core (zap.base (logger l))) (methodLevel meth)) = false ->
      snd (call l meth template args) = zap.Returned).
Proof.
  intros Hsev. rewrite call_log.
  assert (Hlvl : methodLevel meth < zapcore.DPanicLevel).
  { rewrite methodLevel_severity. unfold zapcore.DPanicLevel. unfold Error in Hsev. lia. }
  assert (Hact : zap.terminalAction (zap.base (logger l)) (methodLevel meth)
                 = zap.WriteThenNoop).
  { unfold zap.terminalAction, zapcore.PanicLevel, zapcore.FatalLevel.
    unfold zapcore.DPanicLevel in *. Zcompare. reflexivity. }
  unfold zap.log.
  destruct ((methodLevel meth <? zapcore.DPanicLevel)
            && negb (zapcore.Enabled (zap.core (zap.base (logger l))) (methodLevel meth))).
  - split; [left; reflexivity | intros _; reflexivity].
  - rewrite Hact.
    pose proof (writeCores_fault
                  {| zap.Level := methodLevel meth;
                     zap.LoggerName := zap.name (zap.base (logger l));
                     zap.Msg := methodMessage meth template args |}
                  (zapcore.Check (zap.core (zap.base (logger l))) (methodLevel meth)))
      as Hf.
    destruct (zap.writeCores _ _) as [ws fault]. simpl in Hf. rewrite <- Hf.
    destruct fault; cbn [snd].
    + split; [right; reflexivity | intros H; discriminate H].
    + split; [left; reflexivity | intros _; reflexivity].
Qed.

(** X13: a handle on zap's initial global logger, the no-op logger, writes
    nothing on any call; it still exits on the fatal methods and panics on
    [Panicln], and returns on every other method. *)
Theorem default_global_is_silent (meth : Method) (template : string) (args : list string) :
  call (GetGlobal zap.NewNop) meth template args
  = ([], match meth with
         | MFatal | MFatalf | MFatalln => zap.Exited 1
         | MPanicln => zap.Panicked (zap.LoggedMessage (zap.Sprintln args))
         | _ => zap.Returned
         end).
Proof.
  destruct meth; reflexivity.
Qed.


(* ================================================================== *)
(** ** Further properties: the encoder configurations and the file core *)

Section Configurations.

Variables devBase prodBase : zapcore.EncoderConfig.

(** X15: in both configurations, whatever the starting configuration, the
    six keys of message, level, time, name, caller and stack trace are
    pairwise different and none of them is the omitted key, so each of the
    six fields is written under a key of its own; only the function key is
    omitted. *)
Theorem encoder_keys_distinct (cfg : zapcore.EncoderConfig) :
  cfg = developmentEncoderConfig devBase \/ cfg = productionEncoderConfig prodBase ->
  NoDup [zapcore.MessageKey cfg; zapcore.LevelKey cfg; zapcore.TimeKey cfg;
         zapcore.NameKey cfg; zapcore.CallerKey cfg; zapcore.StacktraceKey cfg]
  /\ Forall (fun k => k <> zapcore.OmitKey)
            [zapcore.MessageKey cfg; zapcore.LevelKey cfg; zapcore.TimeKey cfg;
             zapcore.NameKey cfg; zapcore.CallerKey cfg; zapcore.StacktraceKey cfg]
  /\ zapcore.FunctionKey cfg = zapcore.OmitKey.
Proof.
  intros [-> | ->]; cbn; (split; [| split; [| reflexivity]]).
  - repeat constructor; simpl; intuition discriminate.
  - repeat constructor; discriminate.
  - repeat constructor; simpl; intuition discriminate.
  - repeat constructor; discriminate.
Qed.

(** X16: with at least one path the file core encodes as JSON with the very
    configuration of the console encoder, so outside [Production] mode its
    level encoder is the colour one; and it is enabled at exactly the levels
    at which one of the two console cores is. *)
Theorem file_core_follows_console name md (m : level) p ps :
  exists l enc out enab,
    New devBase prodBase name md m (p :: ps) = (Some l, None)
    /\ fileCoreOf (zap.core (zap.base (logger l))) = Some (zapcore.ioCore enc out enab)
    /\ enc = zapcore.JSONEncoder (configFor devBase prodBase md)
    /\ (md <> Production ->
        zapcore.EncodeLevel (zapcore.configOf enc)
        = Some zapcore.CapitalColorLevelEncoder)
    /\ (forall lv, enab lv = infoPriority m lv || errorPriority m lv).
Proof.
  destruct (file_core_iff_paths devBase prodBase name md m (p :: ps))
    as [l [E [_ Hfile]]].
  exists l. do 3 eexists. split; [exact E |].
  split; [apply Hfile; discriminate |].
  split; [reflexivity |].
  split.
  - intros Hmd. unfold configFor.
    destruct (Z.eqb_spec md Production); [contradiction | reflexivity].
  - intros lv. unfold zapcore.Level_Enabled, infoPriority, errorPriority.
    destruct (zapLevel_cases m) as [Hz | [Hz | Hz]]; rewrite Hz;
      unfold zapcore.DebugLevel, zapcore.InfoLevel, zapcore.ErrorLevel;
      Zcompare; reflexivity.
Qed.

End Configurations.

(* ================================================================== *)
(** ** Closed instances of the further properties *)

Lemma floor_default_branch_witness :
  Warn <> Debug
  /\ Warn <> Error
  /\ New zap.NewDevelopmentEncoderConfig zap.NewProductionEncoderConfig
         "svc" Production Warn ["/tmp/log.json"]
     = New zap.NewDevelopmentEncoderConfig zap.NewProductionEncoderConfig
         "svc" Production Default ["/tmp/log.json"].
Proof.
  assert (H1 : Warn <> Debug) by discriminate.
  assert (H2 : Warn <> Error) by discriminate.
  split; [exact H1 |]. split; [exact H2 |].
  exact (floor_default_branch
           zap.NewDevelopmentEncoderConfig zap.NewProductionEncoderConfig
           "svc" Production Warn ["/tmp/log.json"] H1 H2).
Defined.

Lemma lower_floor_keeps_lines_witness :
  exists l1 l2,
    New zap.NewDevelopmentEncoderConfig zap.NewProductionEncoderConfig
        "svc" Production Debug [] = (Some l1, None)
    /\ New zap.NewDevelopmentEncoderConfig zap.NewProductionEncoderConfig
           "svc" Production Error [] = (Some l2, None)
    /\ fst (call l2 MError "" ["boom"]) <> []
    /\ fst (call l1 MError "" ["boom"]) = fst (call l2 MError "" ["boom"]).
Proof.
  eexists. eexists.
  split; [reflexivity |]. split; [reflexivity |].
  assert (Hw : fst (call {| logger :=
                              zap.Sugar (zap.Named "svc" (zap.New (zapcore.NewTee
                                [consoleCore Error
                                   (productionEncoderConfig zap.NewProductionEncoderConfig)]))) |}
                         MError "" ["boom"]) <> []) by discriminate.
  split; [exact Hw |].
  refine (lower_floor_keeps_lines
            zap.NewDevelopmentEncoderConfig zap.NewProductionEncoderConfig
            "svc" Production Debug Error [] _ _ MError "" ["boom"]
            _ _ _ eq_refl eq_refl Hw).
  - left; reflexivity.
  - right; right; right; left; reflexivity.
  - discriminate.
Defined.

Lemma pathFiles_entries_witness :
  nth_error ["/var/log/a.log"; "/var/log/b.log"] 1 = Some "/var/log/b.log"
  /\ nth_error (pathFiles ["/var/log/a.log"; "/var/log/b.log"]) 1
     = Some zapcore.nilWriteSyncer
  /\ nth_error (pathFiles ["/var/log/a.log"; "/var/log/b.log"]) 3
     = Some (zapcore.AddSync (rotating "/var/log/b.log")).
Proof.
  assert (H1 : nth_error ["/var/log/a.log"; "/var/log/b.log"] 1 = Some "/var/log/b.log")
    by reflexivity.
  assert (H2 : (1 < List.length ["/var/log/a.log"; "/var/log/b.log"])%nat)
    by (apply le_n).
  destruct (pathFiles_entries ["/var/log/a.log"; "/var/log/b.log"])
    as [_ [Hnil [Hrot _]]].
  split; [exact H1 |]. split; [exact (Hnil 1%nat H2) |].
  exact (proj1 (Hrot 1%nat "/var/log/b.log" H1)).
Defined.

Lemma file_paths_break_accepted_calls_witness :
  exists l,
    New zap.NewDevelopmentEncoderConfig zap.NewProductionEncoderConfig
        "svc" Production Info ["/tmp/log.json"] = (Some l, None)
    /\ zapLevel Info <= methodLevel MFatal
    /\ snd (call l MFatal "" ["boom"]) = zap.Panicked zap.NilDereference.
Proof.
  assert (H1 : zapLevel Info <= methodLevel MFatal) by discriminate.
  destruct (file_paths_break_accepted_calls
              zap.NewDevelopmentEncoderConfig zap.NewProductionEncoderConfig
              "svc" Production Info "/tmp/log.json" [] MFatal "" ["boom"])
    as [l [E [_ [Hacc _]]]].
  exists l. split; [exact E |]. split; [exact H1 |].
  exact (proj1 (Hacc H1)).
Defined.

Lemma same_level_same_route_witness :
  methodLevel MInfo = methodLevel MInfof
  /\ map (fun w => (zap.sink w, zap.encoder w))
         (fst (call consoleHandle MInfo "" ["started"]))
     = map (fun w => (zap.sink w, zap.encoder w))
           (fst (call consoleHandle MInfof "%s in %d ms" ["started"; "12"])).
Proof.
  assert (H1 : methodLevel MInfo = methodLevel MInfof) by reflexivity.
  split; [exact H1 |].
  exact (proj1 (same_level_same_route consoleHandle MInfo MInfof
                  "" "%s in %d ms" ["started"] ["started"; "12"] H1)).
Defined.

Lemma plain_severities_return_witness :
  methodSeverity MWarn <= Error
  /\ faulty (zapcore.Check (zap.core (zap.base (logger consoleHandle)))
                           (methodLevel MWarn)) = false
  /\ snd (call consoleHandle MWarn "" ["slow"]) = zap.Returned.
Proof.
  assert (H1 : methodSeverity MWarn <= Error) by discriminate.
  assert (H2 : faulty (zapcore.Check (zap.core (zap.base (logger consoleHandle)))
                                     (methodLevel MWarn)) = false) by reflexivity.
  split; [exact H1 |]. split; [exact H2 |].
  exact (proj2 (plain_severities_return consoleHandle MWarn "" ["slow"] H1) H2).
Defined.

Lemma encoder_keys_distinct_witness :
  NoDup ["msg"; "lv"; "ts"; "logger"; "caller"; "stacktrace"].
Proof.
  exact (proj1 (encoder_keys_distinct
                  zap.NewDevelopmentEncoderConfig zap.NewProductionEncoderConfig
                  (productionEncoderConfig zap.NewProductionEncoderConfig)
                  (or_intror eq_refl))).
Defined.

Lemma file_core_follows_console_witness :
  7 <> Production
  /\ exists l enc out enab,
       New zap.NewDevelopmentEncoderConfig zap.NewProductionEncoderConfig
           "svc" 7 Info ["/tmp/log.json"] = (Some l, None)
       /\ fileCoreOf (zap.core (zap.base (logger l)))
          = Some (zapcore.ioCore enc out enab)
       /\ zapcore.EncodeLevel (zapcore.configOf enc)
          = Some zapcore.CapitalColorLevelEncoder.
Proof.
  assert (H1 : 7 <> Production) by discriminate.
  split; [exact H1 |].
  destruct (file_core_follows_console
              zap.NewDevelopmentEncoderConfig zap.NewProductionEncoderConfig
              "svc" 7 Info "/tmp/log.json" [])
    as [l [enc [out [enab [E [Hf [_ [Hcol _]]]]]]]].
  exists l, enc, out, enab. split; [exact E |]. split; [exact Hf |].
  exact (Hcol H1).
Defined.
